(** * Qiskit chemistry notebooks: QubitMappings and ParticleHoleTransformation

    The repository holds two Jupyter notebooks.  Each is a straight sequence of
    calls into the Qiskit Aqua / Qiskit Chemistry library followed by [print]
    statements, and each stores the standard output of the run that was saved
    with it.

    Two things are embedded here:

    - the code cells, as programs of a small kernel monad in which every
      library operation is a request to an oracle that may return a value or
      raise, and [print] appends to a log.  The library is not part of the
      repository, so it stays a parameter of every statement about the
      programs: what is proved is what the notebooks ask of it, in which
      order, with which values, and what they print of its answers;

    - the stored output of the code cells, line by line, from which the
      library's part of the two stored runs is rebuilt, so that the programs
      can be run on it. *)

From Stdlib Require Import List String Ascii ZArith QArith Bool.
Import ListNotations.
Local Open Scope string_scope.
Local Open Scope list_scope.
Set Warnings "-register-all".

(** ** Text as Python prints it *)

Module Text.

Definition tab : string := String (ascii_of_nat 9) EmptyString.
Definition nl : string := String (ascii_of_nat 10) EmptyString.

(** [s.startswith(p)], returning what follows the prefix. *)
Fixpoint strip_prefix (p s : string) : option string :=
  match p, s with
  | EmptyString, _ => Some s
  | String a p', String b s' => if Ascii.eqb a b then strip_prefix p' s' else None
  | String _ _, EmptyString => None
  end.

(** [needle in s]. *)
Fixpoint contains (needle s : string) : bool :=
  match strip_prefix needle s with
  | Some _ => true
  | None => match s with
            | EmptyString => false
            | String _ s' => contains needle s'
            end
  end.

(** [template.format(a, b, ...)] for templates whose only fields are [{}]. *)
Fixpoint format (template : string) (args : list string) : string :=
  match template with
  | String "{" (String "}" rest) =>
      match args with
      | a :: args' => (a ++ format rest args')%string
      | [] => format rest []
      end
  | String c rest => String c (format rest args)
  | EmptyString => EmptyString
  end.

(** [s.endswith(suffix)], returning what precedes the suffix. *)
Definition strip_suffix (suffix s : string) : option string :=
  let k := (String.length s - String.length suffix)%nat in
  if (String.length suffix <=? String.length s)%nat
     && String.eqb (substring k (String.length suffix) s) suffix
  then Some (substring 0 k s) else None.

(** The literal text of a template before and after its first [{}]. *)
Fixpoint around_field (template : string) : string * string :=
  match template with
  | String "{" (String "}" rest) => (EmptyString, rest)
  | String c rest => let '(pre, post) := around_field rest in (String c pre, post)
  | EmptyString => (EmptyString, EmptyString)
  end.

(** What stands for the [{}] of a one-field template in a printed line. *)
Definition field (template line : string) : option string :=
  let '(pre, post) := around_field template in
  match strip_prefix pre line with
  | Some rest => strip_suffix post rest
  | None => None
  end.

(** The field of the first line that the template matches. *)
Fixpoint find_field (template : string) (lines : list string) : option string :=
  match lines with
  | [] => None
  | line :: lines' =>
      match field template line with
      | Some f => Some f
      | None => find_field template lines'
      end
  end.

(** The fields of all lines that the template matches, in order. *)
Fixpoint all_fields (template : string) (lines : list string) : list string :=
  match lines with
  | [] => []
  | line :: lines' =>
      match field template line with
      | Some f => f :: all_fields template lines'
      | None => all_fields template lines'
      end
  end.

End Text.

(** ** The notebook kernel

    A notebook runs inside a Python kernel.  What the cells do themselves is
    little: bind names, build literals, loop over a list, format and print.
    Everything else is a request to the imported library: constructing an
    object, calling a method, reading an attribute or an item, subtracting
    two library numbers, turning a library value into text.  The library
    answers a request with a value or raises; it owns mutable state (the
    operators are changed in place by [to_matrix] and [chop]), which is the
    oracle's world. *)

Module Kernel.

(** Values a cell can hold. *)
Inductive value : Type :=
| VNone
| VStr (s : string)
| VInt (n : Z)
| VFloat (q : Q)                 (* a float literal, by the number it denotes *)
| VGlobal (name : string)        (* what an imported name is bound to *)
| VList (items : list value)
| VTuple (items : list value)
| VObj (id : nat).               (* an object made by the library *)

Inductive exn : Type :=
| Exception (class message : string).

Definition kwargs : Type := list (string * value).

(** What a cell can ask of the library. *)
Inductive request : Type :=
| Import (module : string)                                  (* import module *)
| ImportFrom (module : string) (names : list string)        (* from module import names *)
| Call (callee : value) (args : list value) (kw : kwargs)   (* callee(args, kw) *)
| CallMethod (receiver : value) (method : string) (args : list value) (kw : kwargs)
| GetAttr (obj : value) (attr : string)                     (* obj.attr *)
| SetAttr (obj : value) (attr : string) (v : value)         (* obj.attr = v *)
| GetItem (obj key : value)                                 (* obj[key] *)
| Sub (a b : value)                                         (* a - b *)
| Iter (v : value)                                          (* tuple(v) *)
| Str (v : value).                                          (* format(v, '') *)

Inductive event : Type :=
| Requested (r : request) (answer : exn + value)
| Printed (text : string).

Definition oracle (W : Type) : Type := request -> W -> (exn + value) * W.

(** A computation of the kernel: given the library and its state, an
    exception or a result, the library's new state, and the events of the
    computation in order. *)
Definition M (W A : Type) : Type := oracle W -> W -> (exn + A) * W * list event.

Section Monad.
Context {W : Type}.

Definition ret {A} (a : A) : M W A := fun _ w => (inr a, w, []).

Definition bind {A B} (m : M W A) (k : A -> M W B) : M W B :=
  fun lib w =>
    match m lib w with
    | (inl e, w1, l1) => (inl e, w1, l1)
    | (inr a, w1, l1) =>
        let '(r, w2, l2) := k a lib w1 in (r, w2, l1 ++ l2)
    end.

Definition raise {A} (e : exn) : M W A := fun _ w => (inl e, w, []).

Definition ask (r : request) : M W value :=
  fun lib w => let '(answer, w1) := lib r w in (answer, w1, [Requested r answer]).

Definition emit (text : string) : M W unit := fun _ w => (inr tt, w, [Printed text]).

End Monad.

Declare Scope kernel_scope.
Delimit Scope kernel_scope with kernel.
Notation "x <- m ;; k" := (bind m (fun x => k))
  (at level 61, m at next level, right associativity) : kernel_scope.
Notation "' pat <- m ;; k" := (bind m (fun x => match x with pat => k end))
  (at level 61, pat pattern, m at next level, right associativity) : kernel_scope.
Notation "m ;; k" := (bind m (fun _ => k))
  (at level 61, right associativity) : kernel_scope.
Local Open Scope kernel_scope.

Section Builtins.
Context {W : Type}.

(** [for x in xs: body(x)] over a list built by the cell. *)
Fixpoint for_each {A} (xs : list A) (body : A -> M W unit) : M W unit :=
  match xs with
  | [] => ret tt
  | x :: xs' => body x ;; for_each xs' body
  end.

(** [str(v)]: a Python string is its own text; the text of anything else
    is asked for (a library object has its own [__format__]) and has to be a
    string. *)
Definition str (v : value) : M W string :=
  match v with
  | VStr s => ret s
  | _ =>
      t <- ask (Str v) ;;
      match t with
      | VStr s => ret s
      | _ => raise (Exception "TypeError" "__format__ must return a str")
      end
  end.

Fixpoint strs (vs : list value) : M W (list string) :=
  match vs with
  | [] => ret []
  | v :: vs' => s <- str v ;; ss <- strs vs' ;; ret (s :: ss)
  end.

(** [template.format(a, b, ...)]. *)
Definition format (template : string) (args : list value) : M W value :=
  ss <- strs args ;; ret (VStr (Text.format template ss)).

(** [print(v)]. *)
Definition print (v : value) : M W unit :=
  s <- str v ;; emit s.

(** [base ** exponent] on integer literals: a float when the exponent is
    negative. *)
Definition pow (base exponent : Z) : value :=
  if (exponent <? 0)%Z then VFloat (1 / inject_Z (base ^ (- exponent)))
  else VInt (base ^ exponent).

Definition two (items : list value) : M W (value * value) :=
  match items with
  | [a; b] => ret (a, b)
  | _ => raise (Exception "ValueError" "wrong number of values to unpack")
  end.

(** [a, b = v]: a tuple or a list gives its items; any other value is asked
    for them. *)
Definition unpack2 (v : value) : M W (value * value) :=
  match v with
  | VTuple items | VList items => two items
  | _ =>
      it <- ask (Iter v) ;;
      match it with
      | VTuple items | VList items => two items
      | _ => raise (Exception "TypeError" "iter() returned non-iterator")
      end
  end.

End Builtins.

(** Running a program: outcome, and what reached standard output. *)
Definition outcome {W A} (run : (exn + A) * W * list event) : exn + A := fst (fst run).
Definition events {W A} (run : (exn + A) * W * list event) : list event := snd run.

Fixpoint printed (l : list event) : list string :=
  match l with
  | [] => []
  | Printed s :: l' => s :: printed l'
  | Requested _ _ :: l' => printed l'
  end.

(** [print] ends what it writes with a newline. *)
Definition unlines (texts : list string) : string :=
  String.concat "" (map (fun s => (s ++ Text.nl)%string) texts).

Definition stdout (l : list event) : string := unlines (printed l).

End Kernel.

Import Kernel.
Local Open Scope kernel_scope.

(** ** chemistry/QubitMappings.ipynb *)

Module QubitMappings.

Section Cells.
Context {W : Type}.

Definition cell_1 : M W unit :=
  ask (Import "numpy") ;;
  ask (ImportFrom "qiskit" ["BasicAer"]) ;;
  ask (ImportFrom "qiskit.transpiler" ["PassManager"]) ;;
  ask (ImportFrom "qiskit.aqua" ["Operator"; "QuantumInstance"; "aqua_globals"]) ;;
  ask (ImportFrom "qiskit.aqua.algorithms.adaptive" ["VQE"]) ;;
  ask (ImportFrom "qiskit.aqua.algorithms.classical" ["ExactEigensolver"]) ;;
  ask (ImportFrom "qiskit.aqua.components.optimizers" ["L_BFGS_B"]) ;;
  ask (ImportFrom "qiskit.aqua.components.variational_forms" ["RY"]) ;;
  ask (ImportFrom "qiskit.chemistry" ["FermionicOperator"]) ;;
  ask (ImportFrom "qiskit.chemistry.drivers" ["PyQuanteDriver"; "UnitsType"; "BasisType"]) ;;
  ask (SetAttr (VGlobal "aqua_globals") "random_seed" (VInt 50)) ;;
  ret tt.

(** Returns [h1] and [h2]. *)
Definition cell_2 : M W (value * value) :=
  angstrom <- ask (GetAttr (VGlobal "UnitsType") "ANGSTROM") ;;
  bsto3g <- ask (GetAttr (VGlobal "BasisType") "BSTO3G") ;;
  driver <- ask (Call (VGlobal "PyQuanteDriver") []
                   [("atoms", VStr "H .0 .0 .0; H .0 .0 0.735"); ("units", angstrom);
                    ("charge", VInt 0); ("multiplicity", VInt 1); ("basis", bsto3g)]) ;;
  molecule <- ask (CallMethod driver "run" [] []) ;;
  h1 <- ask (GetAttr molecule "one_body_integrals") ;;
  h2 <- ask (GetAttr molecule "two_body_integrals") ;;
  ret (h1, h2).

(** Returns [qubitOp_jw], [qubitOp_pa] and [qubitOp_bk]. *)
Definition cell_3 (h1 h2 : value) : M W (value * value * value) :=
  ferOp <- ask (Call (VGlobal "FermionicOperator") [] [("h1", h1); ("h2", h2)]) ;;
  qubitOp_jw <- ask (CallMethod ferOp "mapping" []
                       [("map_type", VStr "JORDAN_WIGNER"); ("threshold", VFloat 0.00000001)]) ;;
  qubitOp_pa <- ask (CallMethod ferOp "mapping" []
                       [("map_type", VStr "PARITY"); ("threshold", VFloat 0.00000001)]) ;;
  qubitOp_bk <- ask (CallMethod ferOp "mapping" []
                       [("map_type", VStr "BRAVYI_KITAEV"); ("threshold", VFloat 0.00000001)]) ;;
  ret (qubitOp_jw, qubitOp_pa, qubitOp_bk).

(** The body of the loop of the fourth cell. *)
Definition exact_step (item : value * value) : M W unit :=
  let '(qubit_op, name) := item in
  ask (CallMethod qubit_op "to_matrix" [] []) ;;
  ask (CallMethod qubit_op "chop" [pow 10 (-10)] []) ;;
  header <- format (Text.nl ++ " --- {} ---") [name] ;;
  print header ;;
  table <- ask (CallMethod qubit_op "print_operators" [] []) ;;
  print table ;;
  exact_eigensolver <- ask (Call (VGlobal "ExactEigensolver") [qubit_op] [("k", VInt 1)]) ;;
  ret_ <- ask (CallMethod exact_eigensolver "run" [] []) ;;
  energy <- ask (GetItem ret_ (VStr "energy")) ;;
  line <- format "The exact ground state energy using {} mapping is: {}" [name; energy] ;;
  print line.

(** Returns [qubit_ops]. *)
Definition cell_4 (qubitOp_jw qubitOp_pa qubitOp_bk : value) : M W (list (value * value)) :=
  let qubit_ops := [(qubitOp_jw, VStr "jordan wigner");
                    (qubitOp_pa, VStr "parity");
                    (qubitOp_bk, VStr "bravyi-kitaev")] in
  for_each qubit_ops exact_step ;;
  ret qubit_ops.

(** The body of the loop of the fifth cell. *)
Definition vqe_step (item : value * value) : M W unit :=
  let '(qubit_op, name) := item in
  lbfgs <- ask (Call (VGlobal "L_BFGS_B") []
                  [("maxfun", VInt 1000); ("factr", VInt 10); ("iprint", VInt 10)]) ;;
  num_qubits <- ask (GetAttr qubit_op "num_qubits") ;;
  var_form <- ask (Call (VGlobal "RY") [num_qubits; VInt 5] [("entanglement", VStr "full")]) ;;
  vqe_algorithm <- ask (Call (VGlobal "VQE") [qubit_op; var_form; lbfgs; VStr "matrix"] []) ;;
  backend <- ask (CallMethod (VGlobal "BasicAer") "get_backend" [VStr "statevector_simulator"] []) ;;
  pass_manager <- ask (Call (VGlobal "PassManager") [] []) ;;
  quantum_instance <- ask (Call (VGlobal "QuantumInstance") [backend]
                             [("pass_manager", pass_manager)]) ;;
  results <- ask (CallMethod vqe_algorithm "run" [quantum_instance] []) ;;
  eigvals <- ask (GetItem results (VStr "eigvals")) ;;
  eigval <- ask (GetItem eigvals (VInt 0)) ;;
  line <- format "Ground state energy using {}: {}" [name; eigval] ;;
  print line.

Definition cell_5 (qubit_ops : list (value * value)) : M W unit :=
  for_each qubit_ops vqe_step.

(** The cells in order, as "Run All" runs them: an exception ends the run. *)
Definition notebook : M W unit :=
  cell_1 ;;
  '(h1, h2) <- cell_2 ;;
  '(qubitOp_jw, qubitOp_pa, qubitOp_bk) <- cell_3 h1 h2 ;;
  qubit_ops <- cell_4 qubitOp_jw qubitOp_pa qubitOp_bk ;;
  cell_5 qubit_ops.

End Cells.

(** *** The output stored with the notebook, line by line *)

(** Standard output of the fourth code cell. *)
Definition stdout_cell_4 : list string :=
  [ "";
    " --- jordan wigner ---";
    "IIII" ++ Text.tab ++ "(-0.8105479862760991+0j)";
    "IIIZ" ++ Text.tab ++ "(0.17218394273085635+0j)";
    "IIZI" ++ Text.tab ++ "(-0.22575350251540605+0j)";
    "IIZZ" ++ Text.tab ++ "(0.12091263358559995+0j)";
    "IZII" ++ Text.tab ++ "(0.17218394273085635+0j)";
    "IZIZ" ++ Text.tab ++ "(0.16892754048859007+0j)";
    "IZZI" ++ Text.tab ++ "(0.16614543338049342+0j)";
    "IZZZ" ++ Text.tab ++ "(-8.326672684688674e-17+0j)";
    "XXXX" ++ Text.tab ++ "(0.045232799794893426+0j)";
    "XXYY" ++ Text.tab ++ "(0.045232799794893426+0j)";
    "YYXX" ++ Text.tab ++ "(0.045232799794893426+0j)";
    "YYYY" ++ Text.tab ++ "(0.045232799794893426+0j)";
    "ZIII" ++ Text.tab ++ "(-0.2257535025154061+0j)";
    "ZIIZ" ++ Text.tab ++ "(0.16614543338049342+0j)";
    "ZIZI" ++ Text.tab ++ "(0.17464343142442207+0j)";
    "ZZII" ++ Text.tab ++ "(0.12091263358559991+0j)";
    "ZZIZ" ++ Text.tab ++ "(-2.42861286636753e-17+0j)";
    "ZZZI" ++ Text.tab ++ "(-6.938893903907228e-17+0j)";
    "ZZZZ" ++ Text.tab ++ "(-3.122502256758253e-17+0j)";
    "";
    "The exact ground state energy using jordan wigner mapping is: -1.8572750766378716";
    "";
    " --- parity ---";
    "IIII" ++ Text.tab ++ "(-0.8105479862760991+0j)";
    "IIIZ" ++ Text.tab ++ "(0.17218394273085635+0j)";
    "IIZI" ++ Text.tab ++ "(0.1209126335855999+0j)";
    "IIZZ" ++ Text.tab ++ "(-0.2257535025154061+0j)";
    "IXIX" ++ Text.tab ++ "(0.045232799794893426+0j)";
    "IXZX" ++ Text.tab ++ "(-0.045232799794893426+0j)";
    "IZII" ++ Text.tab ++ "(-6.938893903907228e-17+0j)";
    "IZIZ" ++ Text.tab ++ "(0.16614543338049345+0j)";
    "IZZI" ++ Text.tab ++ "(0.17218394273085635+0j)";
    "IZZZ" ++ Text.tab ++ "(0.16892754048859007+0j)";
    "ZIII" ++ Text.tab ++ "(-3.469446951953614e-17+0j)";
    "ZIIZ" ++ Text.tab ++ "(-6.245004513516506e-17+0j)";
    "ZIZI" ++ Text.tab ++ "(0.1209126335855999+0j)";
    "ZIZZ" ++ Text.tab ++ "(-2.0816681711721685e-17+0j)";
    "ZXIX" ++ Text.tab ++ "(0.045232799794893426+0j)";
    "ZXZX" ++ Text.tab ++ "(-0.045232799794893426+0j)";
    "ZZII" ++ Text.tab ++ "(-0.2257535025154061+0j)";
    "ZZIZ" ++ Text.tab ++ "(0.16614543338049342+0j)";
    "ZZZZ" ++ Text.tab ++ "(0.17464343142442207+0j)";
    "";
    "The exact ground state energy using parity mapping is: -1.8572750766378738";
    "";
    " --- bravyi-kitaev ---";
    "IIII" ++ Text.tab ++ "(-0.8105479862760991+0j)";
    "IIIZ" ++ Text.tab ++ "(0.17218394273085635+0j)";
    "IIZI" ++ Text.tab ++ "(0.1209126335855999+0j)";
    "IIZZ" ++ Text.tab ++ "(-0.2257535025154061+0j)";
    "IXIX" ++ Text.tab ++ "(0.045232799794893426+0j)";
    "IXZX" ++ Text.tab ++ "(-0.045232799794893426+0j)";
    "IZII" ++ Text.tab ++ "(0.17218394273085635+0j)";
    "IZIZ" ++ Text.tab ++ "(0.16892754048859007+0j)";
    "IZZI" ++ Text.tab ++ "(-6.938893903907228e-17+0j)";
    "IZZZ" ++ Text.tab ++ "(0.16614543338049345+0j)";
    "ZIII" ++ Text.tab ++ "(-3.469446951953614e-17+0j)";
    "ZIIZ" ++ Text.tab ++ "(-6.245004513516506e-17+0j)";
    "ZIZI" ++ Text.tab ++ "(0.1209126335855999+0j)";
    "ZIZZ" ++ Text.tab ++ "(-2.0816681711721685e-17+0j)";
    "ZXIX" ++ Text.tab ++ "(0.045232799794893426+0j)";
    "ZXZX" ++ Text.tab ++ "(-0.045232799794893426+0j)";
    "ZZIZ" ++ Text.tab ++ "(0.17464343142442207+0j)";
    "ZZZI" ++ Text.tab ++ "(-0.2257535025154061+0j)";
    "ZZZZ" ++ Text.tab ++ "(0.16614543338049342+0j)";
    "";
    "The exact ground state energy using bravyi-kitaev mapping is: -1.8572750766378796" ]%string.

(** Standard output of the fifth code cell. *)
Definition stdout_cell_5 : list string :=
  [ "Ground state energy using jordan wigner: -1.8570893208672647";
    "Ground state energy using parity: -1.8572686760592785";
    "Ground state energy using bravyi-kitaev: -1.85727507635405" ]%string.

Fixpoint after_line (header : string) (lines : list string) : list string :=
  match lines with
  | [] => []
  | l :: ls => if String.eqb l header then ls else after_line header ls
  end.

Fixpoint until_blank (lines : list string) : list string :=
  match lines with
  | [] => []
  | l :: ls => if String.eqb l "" then [] else l :: until_blank ls
  end.

(** The stored lines from the header of a mapping to the next blank line:
    what [print(qubit_op.print_operators())] wrote in the stored run. *)
Definition table (name : string) : list string :=
  until_blank (after_line (Text.format " --- {} ---" [name]) stdout_cell_4).

End QubitMappings.

(** ** chemistry/ParticleHoleTransformation.ipynb *)

Module ParticleHoleTransformation.

Section Cells.
Context {W : Type}.

Definition cell_1 : M W unit :=
  ask (Import "numpy") ;;
  ask (ImportFrom "qiskit" ["BasicAer"]) ;;
  ask (ImportFrom "qiskit.transpiler" ["PassManager"]) ;;
  ask (ImportFrom "qiskit.aqua" ["Operator"; "QuantumInstance"]) ;;
  ask (ImportFrom "qiskit.aqua.algorithms.adaptive" ["VQE"]) ;;
  ask (ImportFrom "qiskit.aqua.algorithms.classical" ["ExactEigensolver"]) ;;
  ask (ImportFrom "qiskit.aqua.components.optimizers" ["L_BFGS_B"]) ;;
  ask (ImportFrom "qiskit.aqua.components.variational_forms" ["RY"]) ;;
  ask (ImportFrom "qiskit.chemistry" ["FermionicOperator"]) ;;
  ask (ImportFrom "qiskit.chemistry.drivers" ["PySCFDriver"; "UnitsType"]) ;;
  ret tt.

(** Returns [molecule]. *)
Definition cell_2 : M W value :=
  angstrom <- ask (GetAttr (VGlobal "UnitsType") "ANGSTROM") ;;
  driver <- ask (Call (VGlobal "PySCFDriver") []
                   [("atom", VStr "H .0 .0 .0; H .0 .0 0.735"); ("unit", angstrom);
                    ("charge", VInt 0); ("spin", VInt 0); ("basis", VStr "sto3g")]) ;;
  ask (CallMethod driver "run" [] []).

(** Returns [ferOp]. *)
Definition cell_3 (molecule : value) : M W value :=
  h1 <- ask (GetAttr molecule "one_body_integrals") ;;
  h2 <- ask (GetAttr molecule "two_body_integrals") ;;
  ferOp <- ask (Call (VGlobal "FermionicOperator") [] [("h1", h1); ("h2", h2)]) ;;
  qubitOp_jw <- ask (CallMethod ferOp "mapping" []
                       [("map_type", VStr "JORDAN_WIGNER"); ("threshold", VFloat 0.00000001)]) ;;
  ask (CallMethod qubitOp_jw "chop" [pow 10 (-10)] []) ;;
  exact_eigensolver <- ask (Call (VGlobal "ExactEigensolver") [qubitOp_jw] [("k", VInt 1)]) ;;
  ret_ <- ask (CallMethod exact_eigensolver "run" [] []) ;;
  energy <- ask (GetItem ret_ (VStr "energy")) ;;
  line <- format "The exact ground state energy is: {}" [energy] ;;
  print line ;;
  hf_energy <- ask (GetAttr molecule "hf_energy") ;;
  nuclear_repulsion_energy <- ask (GetAttr molecule "nuclear_repulsion_energy") ;;
  hf_electron_energy <- ask (Sub hf_energy nuclear_repulsion_energy) ;;
  line <- format "The Hartree Fock Electron Energy is: {}" [hf_electron_energy] ;;
  print line ;;
  ret ferOp.

(** Returns [energy_shift] and [newqubitOp_jw]. *)
Definition cell_4 (ferOp : value) : M W (value * value) :=
  pair <- ask (CallMethod ferOp "particle_hole_transformation" [] [("num_particles", VInt 2)]) ;;
  '(newferOp, energy_shift) <- unpack2 pair ;;
  line <- format "Energy shift is: {}" [energy_shift] ;;
  print line ;;
  newqubitOp_jw <- ask (CallMethod newferOp "mapping" []
                          [("map_type", VStr "JORDAN_WIGNER"); ("threshold", VFloat 0.00000001)]) ;;
  ask (CallMethod newqubitOp_jw "chop" [pow 10 (-10)] []) ;;
  exact_eigensolver <- ask (Call (VGlobal "ExactEigensolver") [newqubitOp_jw] [("k", VInt 1)]) ;;
  ret_ <- ask (CallMethod exact_eigensolver "run" [] []) ;;
  energy <- ask (GetItem ret_ (VStr "energy")) ;;
  line <- format "The exact ground state energy in PH basis is {}" [energy] ;;
  print line ;;
  energy <- ask (GetItem ret_ (VStr "energy")) ;;
  shifted <- ask (Sub energy energy_shift) ;;
  line <- format "The exact ground state energy in PH basis is {} (with energy_shift)" [shifted] ;;
  print line ;;
  ret (energy_shift, newqubitOp_jw).

Definition cell_5 (energy_shift newqubitOp_jw : value) : M W unit :=
  lbfgs <- ask (Call (VGlobal "L_BFGS_B") []
                  [("maxfun", VInt 1000); ("factr", VInt 10); ("iprint", VInt 10)]) ;;
  num_qubits <- ask (GetAttr newqubitOp_jw "num_qubits") ;;
  var_form <- ask (Call (VGlobal "RY") [num_qubits; VInt 5]
                     [("entangler_map", VList [VList [VInt 0; VInt 1];
                                               VList [VInt 1; VInt 2];
                                               VList [VInt 2; VInt 3]])]) ;;
  vqe_algorithm <- ask (Call (VGlobal "VQE") [newqubitOp_jw; var_form; lbfgs; VStr "matrix"] []) ;;
  backend <- ask (CallMethod (VGlobal "BasicAer") "get_backend" [VStr "statevector_simulator"] []) ;;
  pass_manager <- ask (Call (VGlobal "PassManager") [] []) ;;
  quantum_instance <- ask (Call (VGlobal "QuantumInstance") [backend]
                             [("pass_manager", pass_manager)]) ;;
  results <- ask (CallMethod vqe_algorithm "run" [quantum_instance] []) ;;
  eigvals <- ask (GetItem results (VStr "eigvals")) ;;
  eigval <- ask (GetItem eigvals (VInt 0)) ;;
  real <- ask (GetAttr eigval "real") ;;
  line <- format "Minimum value: {}" [real] ;;
  print line ;;
  eigvals <- ask (GetItem results (VStr "eigvals")) ;;
  eigval <- ask (GetItem eigvals (VInt 0)) ;;
  real <- ask (GetAttr eigval "real") ;;
  shifted <- ask (Sub real energy_shift) ;;
  line <- format "Minimum value: {}" [shifted] ;;
  print line ;;
  opt_params <- ask (GetItem results (VStr "opt_params")) ;;
  line <- format "Parameters: {}" [opt_params] ;;
  print line.

(** The code cells in order, as "Run All" runs them. *)
Definition notebook : M W unit :=
  cell_1 ;;
  molecule <- cell_2 ;;
  ferOp <- cell_3 molecule ;;
  '(energy_shift, newqubitOp_jw) <- cell_4 ferOp ;;
  cell_5 energy_shift newqubitOp_jw.

End Cells.

(** *** The output stored with the notebook, line by line *)

(** Standard output of the third code cell. *)
Definition stdout_cell_3 : list string :=
  [ "The exact ground state energy is: -1.8572750302023795";
    "The Hartree Fock Electron Energy is: -1.8369679912029842" ]%string.

(** Standard output of the fourth code cell. *)
Definition stdout_cell_4 : list string :=
  [ "Energy shift is: 1.8369679912029846";
    "The exact ground state energy in PH basis is -0.020307038999396183";
    "The exact ground state energy in PH basis is -1.8572750302023808 (with energy_shift)" ]%string.

(** Standard output of the fifth code cell. *)
Definition stdout_cell_5 : list string :=
  [ "Minimum value: -0.020307038771711697";
    "Minimum value: -1.8572750299746963";
    "Parameters: [-0.62024568 -0.94461634 -0.12822854 -1.33174693 -3.12835752 -2.41119768";
    "  0.67926104  2.44344768  0.72721421 -2.76518798 -1.08251803 -1.75962366";
    "  0.54861203  1.8995056   3.04269648 -1.75046119  0.16409288  0.68204022";
    " -0.07661803 -0.76359574 -1.56412942 -2.02324628  1.50961019  1.31452025]" ]%string.

End ParticleHoleTransformation.

(** ** Replaying the stored runs

    A scripted library answers the requests of a run from a list, in
    order, whatever is asked.  The scripts below give the library's part of
    the two stored runs: fresh objects where the notebook only passes a value
    on, and the stored text where the notebook prints it.  With them the
    programs above can be run, and what they write can be set against the
    stored output. *)

Module Replay.

Definition script : Type := list (exn + value).

Definition scripted : oracle script :=
  fun _ answers =>
    match answers with
    | a :: rest => (a, rest)
    | [] => (inl (Exception "RuntimeError" "the script has no answer left"), [])
    end.

Definition none : exn + value := inr VNone.
Definition obj (id : nat) : exn + value := inr (VObj id).
Definition text (s : option string) : exn + value :=
  match s with
  | Some t => inr (VStr t)
  | None => inl (Exception "LookupError" "not in the stored output")
  end.

(** The answers to one pass of the loop of the fourth cell of QubitMappings. *)
Definition exact_step (base : nat) (name : string) : script :=
  [ obj base;                                         (* to_matrix *)
    none;                                             (* chop *)
    text (Some (unlines (QubitMappings.table name))); (* print_operators *)
    obj (base + 1);                                   (* ExactEigensolver *)
    obj (base + 2);                                   (* run *)
    obj (base + 3);                                   (* ret['energy'] *)
    text (Text.find_field
            (Text.format "The exact ground state energy using {} mapping is: {}" [name; "{}"])
            QubitMappings.stdout_cell_4) ].

(** The answers up to the call of [VQE.run], the same in both notebooks. *)
Definition vqe_setup (base : nat) : script :=
  [ obj base;                                         (* L_BFGS_B *)
    inr (VInt 4);                                     (* num_qubits *)
    obj (base + 1);                                   (* RY *)
    obj (base + 2);                                   (* VQE *)
    obj (base + 3);                                   (* get_backend *)
    obj (base + 4);                                   (* PassManager *)
    obj (base + 5);                                   (* QuantumInstance *)
    obj (base + 6) ].                                 (* run *)

(** The answers to one pass of the loop of the fifth cell of QubitMappings. *)
Definition vqe_step (base : nat) (name : string) : script :=
  vqe_setup base ++
  [ obj (base + 7);                                   (* results['eigvals'] *)
    obj (base + 8);                                   (* [0] *)
    text (Text.find_field (Text.format "Ground state energy using {}: {}" [name; "{}"])
                          QubitMappings.stdout_cell_5) ].

Definition QubitMappings_run : script :=
  repeat none 11 ++                                   (* imports, random_seed *)
  [ obj 1; obj 2; obj 3; obj 4; obj 5; obj 6 ] ++     (* ANGSTROM ... two_body_integrals *)
  [ obj 7; obj 8; obj 9; obj 10 ] ++                  (* ferOp, qubitOp_jw, _pa, _bk *)
  exact_step 20 "jordan wigner" ++ exact_step 30 "parity" ++ exact_step 40 "bravyi-kitaev" ++
  vqe_step 50 "jordan wigner" ++ vqe_step 60 "parity" ++ vqe_step 70 "bravyi-kitaev".

(** [Parameters: {}] is filled with an array whose text runs over the rest
    of the cell's output. *)
Definition parameters_text : option string :=
  match ParticleHoleTransformation.stdout_cell_5 with
  | _ :: _ :: first :: others =>
      match Text.field "Parameters: {}" first with
      | Some f => Some (String.concat Text.nl (f :: others))
      | None => None
      end
  | _ => None
  end.

Definition ParticleHoleTransformation_run : script :=
  let out3 := ParticleHoleTransformation.stdout_cell_3 in
  let out4 := ParticleHoleTransformation.stdout_cell_4 in
  let out5 := ParticleHoleTransformation.stdout_cell_5 in
  repeat none 10 ++                                   (* imports *)
  [ obj 1; obj 2; obj 3 ] ++                          (* ANGSTROM, driver, molecule *)
  [ obj 4; obj 5; obj 6; obj 7; none; obj 8; obj 9;   (* h1 ... run *)
    obj 10;                                           (* ret['energy'] *)
    text (Text.find_field "The exact ground state energy is: {}" out3);
    obj 11; obj 12; obj 13;                           (* hf_energy - nuclear_repulsion_energy *)
    text (Text.find_field "The Hartree Fock Electron Energy is: {}" out3) ] ++
  [ inr (VTuple [VObj 14; VObj 15]);                  (* particle_hole_transformation *)
    text (Text.find_field "Energy shift is: {}" out4);
    obj 16; none; obj 17; obj 18;                     (* mapping, chop, ExactEigensolver, run *)
    obj 19;                                           (* ret['energy'] *)
    text (Text.find_field "The exact ground state energy in PH basis is {}" out4);
    obj 20; obj 21;                                   (* ret['energy'] - energy_shift *)
    text (Text.find_field "The exact ground state energy in PH basis is {} (with energy_shift)"
                          out4) ] ++
  vqe_setup 30 ++
  [ obj 37; obj 38; obj 39;                           (* results['eigvals'][0].real *)
    text (nth_error (Text.all_fields "Minimum value: {}" out5) 0);
    obj 40; obj 41; obj 42; obj 43;                   (* ... - energy_shift *)
    text (nth_error (Text.all_fields "Minimum value: {}" out5) 1);
    obj 44;                                           (* results['opt_params'] *)
    text parameters_text ].

(** A run in which the request number [n] (from 0) raises [e] instead. *)
Fixpoint failing_at (n : nat) (e : exn) (answers : script) : script :=
  match n, answers with
  | O, _ :: rest => inl e :: rest
  | S n', a :: rest => a :: failing_at n' e rest
  | _, [] => []
  end.

End Replay.


(** ** What a run reports

    Properties of a run are read off its events.  A value is the same object
    as another when the two are equal as values. *)

Module Report.

Fixpoint value_eqb (a b : value) : bool :=
  let fix all2 (xs ys : list value) : bool :=
    match xs, ys with
    | [], [] => true
    | x :: xs', y :: ys' => value_eqb x y && all2 xs' ys'
    | _, _ => false
    end in
  match a, b with
  | VNone, VNone => true
  | VStr s, VStr t => String.eqb s t
  | VInt n, VInt m => Z.eqb n m
  | VFloat p, VFloat q => Z.eqb (Qnum p) (Qnum q) && Pos.eqb (Qden p) (Qden q)
  | VGlobal s, VGlobal t => String.eqb s t
  | VList xs, VList ys => all2 xs ys
  | VTuple xs, VTuple ys => all2 xs ys
  | VObj i, VObj j => Nat.eqb i j
  | _, _ => false
  end.

(** The library made [v] by calling the class [cls]. *)
Definition made (cls : string) (ev : event) : option value :=
  match ev with
  | Requested (Call (VGlobal c) _ _) (inr v) => if String.eqb c cls then Some v else None
  | _ => None
  end.

(** The results of every [run] of a VQE object in [l], each with the events
    that follow the run; [vqes] are the VQE objects made so far. *)
Fixpoint vqe_runs (vqes : list value) (l : list event) : list (value * list event) :=
  match l with
  | [] => []
  | ev :: l' =>
      match made "VQE" ev with
      | Some v => vqe_runs (v :: vqes) l'
      | None =>
          match ev with
          | Requested (CallMethod receiver method _ _) (inr results) =>
              if String.eqb method "run" && existsb (value_eqb receiver) vqes
              then (results, l') :: vqe_runs vqes l'
              else vqe_runs vqes l'
          | _ => vqe_runs vqes l'
          end
      end
  end.

(** The text of [v] is printed in [l]: a string as it is, any other value
    through the text the library gave for it. *)
Fixpoint written (v : value) (l : list event) : bool :=
  match l with
  | [] => false
  | ev :: l' =>
      match ev with
      | Printed line =>
          match v with
          | VStr s => Text.contains s line
          | _ => false
          end
      | Requested (Str v') (inr (VStr t)) =>
          value_eqb v' v && existsb (Text.contains t) (printed l')
      | _ => false
      end || written v l'
  end.

(** The answers to reading [obj[key]] in [l], each with the events that
    follow it. *)
Fixpoint items (obj key : value) (l : list event) : list (value * list event) :=
  match l with
  | [] => []
  | Requested (GetItem obj' key') (inr v) :: l' =>
      if value_eqb key' key && value_eqb obj' obj then (v, l') :: items obj key l'
      else items obj key l'
  | _ :: l' => items obj key l'
  end.

(** The answers to reading [obj.attr] in [l], each with the events that
    follow it. *)
Fixpoint attrs (obj : value) (attr : string) (l : list event) : list (value * list event) :=
  match l with
  | [] => []
  | Requested (GetAttr obj' attr') (inr v) :: l' =>
      if String.eqb attr' attr && value_eqb obj' obj then (v, l') :: attrs obj attr l'
      else attrs obj attr l'
  | _ :: l' => attrs obj attr l'
  end.

(** After the run that gave [results], [results['eigvals'][0]] is read and
    it, or its real part, is printed. *)
Definition energy_reported (run : value * list event) : bool :=
  let '(results, after) := run in
  existsb (fun '(eigvals, l1) =>
    existsb (fun '(eigval, l2) =>
      written eigval l2
      || existsb (fun '(real, l3) => written real l3) (attrs eigval "real" l2))
      (items eigvals (VInt 0) l1))
    (items results (VStr "eigvals") after).

(** After the run that gave [results], [results['opt_params']] is read and
    printed. *)
Definition parameters_reported (run : value * list event) : bool :=
  let '(results, after) := run in
  existsb (fun '(opt_params, l1) => written opt_params l1)
          (items results (VStr "opt_params") after).

(** Every VQE run of [l] is followed by a print of its minimum energy and of
    its optimized parameters. *)
Definition reports_energy_and_parameters (l : list event) : bool :=
  forallb (fun run => energy_reported run && parameters_reported run) (vqe_runs [] l).

Definition reports_energy (l : list event) : bool :=
  forallb energy_reported (vqe_runs [] l).

(** The request reads the item [key] of some object. *)
Definition reads (key : string) (r : request) : bool :=
  match r with
  | GetItem _ (VStr k) => String.eqb k key
  | _ => false
  end.

(** The request calls the class [cls]. *)
Definition calls (cls : string) (r : request) : bool :=
  match r with
  | Call (VGlobal c) _ _ => String.eqb c cls
  | _ => false
  end.

(** Some request of [l] satisfies [P]. *)
Definition asked (P : request -> bool) (l : list event) : bool :=
  existsb (fun ev => match ev with
                     | Requested r _ => P r
                     | Printed _ => false
                     end) l.

Section Judgements.
Context {W : Type}.

(** [m], started in [w], ends without an exception: with the result [a],
    the library in state [w1], and the events [l]. *)
Definition runs {A} (m : M W A) (lib : oracle W) (w : W) (a : A) (w1 : W) (l : list event) : Prop :=
  m lib w = (inr a, w1, l).

(** In a run of [m], a request that raised is the last event of the run
    and its exception is the run's outcome. *)
Definition propagates {A} (m : M W A) : Prop :=
  forall lib w pre r e post,
    events (m lib w) = pre ++ Requested r (inl e) :: post ->
    post = [] /\ outcome (m lib w) = inl e.

(** No run of [m] makes a request that satisfies [P]. *)
Definition quiet {A} (P : request -> bool) (m : M W A) : Prop :=
  forall lib w, asked P (events (m lib w)) = false.

End Judgements.

End Report.


(** ** What a run asks for

    The requests of a run that were answered, read off its events: which
    objects were made, which methods were called on which object, what was
    handed to a constructor, what was read off what, what was subtracted
    from what, and which value a printed text is the text of. *)

Module Trace.

(** The answered requests of [l], each seen through [f]. *)
Definition collect {A} (f : request -> value -> list A) (l : list event) : list A :=
  flat_map (fun ev => match ev with
                      | Requested r (inr v) => f r v
                      | _ => []
                      end) l.

(** The objects the class [cls] was called to make. *)
Definition made_by (cls : string) : list event -> list value :=
  collect (fun r v => match r with
                      | Call (VGlobal c) _ _ => if String.eqb c cls then [v] else []
                      | _ => []
                      end).

(** The first positional argument of each call of the class [cls]. *)
Definition operands (cls : string) : list event -> list value :=
  collect (fun r _ => match r with
                      | Call (VGlobal c) (operand :: _) _ =>
                          if String.eqb c cls then [operand] else []
                      | _ => []
                      end).

(** All positional arguments of each call of the class [cls]. *)
Definition arguments (cls : string) : list event -> list (list value) :=
  collect (fun r _ => match r with
                      | Call (VGlobal c) args _ => if String.eqb c cls then [args] else []
                      | _ => []
                      end).

(** The objects on which [method] was called. *)
Definition receivers (method : string) : list event -> list value :=
  collect (fun r _ => match r with
                      | CallMethod receiver m _ _ =>
                          if String.eqb m method then [receiver] else []
                      | _ => []
                      end).

(** The positional arguments of each call of [method]. *)
Definition passed (method : string) : list event -> list (list value) :=
  collect (fun r _ => match r with
                      | CallMethod _ m args _ => if String.eqb m method then [args] else []
                      | _ => []
                      end).

(** What the calls of [method] returned. *)
Definition returned (method : string) : list event -> list value :=
  collect (fun r v => match r with
                      | CallMethod _ m _ _ => if String.eqb m method then [v] else []
                      | _ => []
                      end).

Fixpoint lookup (key : string) (kw : kwargs) : option value :=
  match kw with
  | [] => None
  | (k, v) :: kw' => if String.eqb k key then Some v else lookup key kw'
  end.

(** The keyword argument [key] of each call of [method] that has one. *)
Definition keyword (method key : string) : list event -> list value :=
  collect (fun r _ => match r with
                      | CallMethod _ m _ kw =>
                          if String.eqb m method
                          then match lookup key kw with
                               | Some v => [v]
                               | None => []
                               end
                          else []
                      | _ => []
                      end).

(** The keyword argument [key] of each call of the class [cls] that has
    one. *)
Definition given (cls key : string) : list event -> list value :=
  collect (fun r _ => match r with
                      | Call (VGlobal c) _ kw =>
                          if String.eqb c cls
                          then match lookup key kw with
                               | Some v => [v]
                               | None => []
                               end
                          else []
                      | _ => []
                      end).

(** What was read as [obj.attr], with the object it was read from. *)
Definition attributes (attr : string) : list event -> list (value * value) :=
  collect (fun r v => match r with
                      | GetAttr obj a => if String.eqb a attr then [(obj, v)] else []
                      | _ => []
                      end).

(** The operands of each subtraction. *)
Definition subtractions : list event -> list (value * value) :=
  collect (fun r _ => match r with
                      | Sub a b => [(a, b)]
                      | _ => []
                      end).

(** The operands of each subtraction, with what it gave. *)
Definition differences : list event -> list (value * value * value) :=
  collect (fun r v => match r with
                      | Sub a b => [(a, b, v)]
                      | _ => []
                      end).

(** What was read as [obj[key]], with the object it was read from. *)
Definition subscripts (key : value) : list event -> list (value * value) :=
  collect (fun r v => match r with
                      | GetItem obj k => if Report.value_eqb k key then [(obj, v)] else []
                      | _ => []
                      end).

(** [s] is the text of [v] in a run with the events [l]: [v] is the string
    [s] itself, or the library gave [s] when it was asked for the text of
    [v]. *)
Definition text_in (l : list event) (v : value) (s : string) : Prop :=
  v = VStr s \/ In (Requested (Str v) (inr (VStr s))) l.

Definition as_pair (v : value) : list (value * value) :=
  match v with
  | VTuple [a; b] | VList [a; b] => [(a, b)]
  | _ => []
  end.

(** The pairs [particle_hole_transformation] gave: the answer itself when it
    is a tuple or a list, else the items it was asked for. *)
Definition transformed : list event -> list (value * value) :=
  collect (fun r v => match r with
                      | CallMethod _ m _ _ =>
                          if String.eqb m "particle_hole_transformation" then as_pair v else []
                      | Iter _ => as_pair v
                      | _ => []
                      end).

(** The events of [str(v)] when it gives the text [s]. *)
Definition str_events (v : value) (s : string) : list event :=
  match v with
  | VStr _ => []
  | _ => [Requested (Str v) (inr (VStr s))]
  end.

(** The events of a run as they arise from its steps: none, one, those of a
    [str], those of one part followed by those of another. *)
Inductive tree : Type :=
| Nil
| One (ev : event)
| Text (v : value) (s : string)
| App (a b : tree).

Fixpoint events_of (t : tree) : list event :=
  match t with
  | Nil => []
  | One ev => [ev]
  | Text v s => str_events v s
  | App a b => events_of a ++ events_of b
  end.

(** The same without the requests for texts. *)
Fixpoint flatten (t : tree) : list event :=
  match t with
  | Nil | Text _ _ => []
  | One ev => [ev]
  | App a b => flatten a ++ flatten b
  end.



Definition is_setattr (r : request) : bool :=
  match r with
  | SetAttr _ _ _ => true
  | _ => false
  end.

Definition invokes (method : string) (r : request) : bool :=
  match r with
  | CallMethod _ m _ _ => String.eqb m method
  | _ => false
  end.

Section Judgements.
Context {W : Type}.

(** In a run of [m], [chop] is called on an object only right after
    [to_matrix] was called on it and returned. *)
Definition chops_matrices {A} (m : M W A) : Prop :=
  forall lib w pre receiver args kw answer post,
    events (m lib w) = pre ++ Requested (CallMethod receiver "chop" args kw) answer :: post ->
    exists pre' matrix,
      pre = pre' ++ [Requested (CallMethod receiver "to_matrix" [] []) (inr matrix)].

End Judgements.

End Trace.

(** * Properties *)

(** ** The stored runs *)

Import Report.

(** The programs above, run with the library's part of the stored runs,
    write the stored output character for character, and use up the
    script. *)
Lemma QubitMappings_replay :
  let run := QubitMappings.notebook Replay.scripted Replay.QubitMappings_run in
  run = (inr tt, [], events run) /\
  stdout (events run) = unlines (QubitMappings.stdout_cell_4 ++ QubitMappings.stdout_cell_5).
Proof. vm_compute. split; reflexivity. Qed.

Lemma ParticleHoleTransformation_replay :
  let run := ParticleHoleTransformation.notebook Replay.scripted
               Replay.ParticleHoleTransformation_run in
  run = (inr tt, [], events run) /\
  stdout (events run) = unlines (ParticleHoleTransformation.stdout_cell_3
                                 ++ ParticleHoleTransformation.stdout_cell_4
                                 ++ ParticleHoleTransformation.stdout_cell_5).
Proof. vm_compute. split; reflexivity. Qed.

(** ** Exceptions *)

Section Propagation.
Context {W : Type}.

Lemma propagates_ret {A} (a : A) : propagates (@ret W A a).
Proof. intros lib w [|ev pre] r e post H; discriminate H. Qed.

Lemma propagates_raise {A} (e0 : exn) : propagates (@raise W A e0).
Proof. intros lib w [|ev pre] r e post H; discriminate H. Qed.

Lemma propagates_emit (s : string) : propagates (@emit W s).
Proof.
  intros lib w [|ev [|ev' pre]] r e post H; discriminate H.
Qed.

Lemma propagates_ask (r : request) : propagates (@ask W r).
Proof.
  intros lib w pre r' e post. unfold ask, events, outcome.
  destruct (lib r w) as [answer w1]. cbn.
  destruct pre as [|ev [|ev' pre]]; cbn; intro H; [|discriminate H..].
  injection H as H1 H2. split; [now symmetry | congruence].
Qed.

Lemma propagates_bind {A B} (m : M W A) (k : A -> M W B) :
  propagates m -> (forall a, propagates (k a)) -> propagates (bind m k).
Proof.
  intros Hm Hk lib w pre r e post. specialize (Hm lib w).
  unfold bind, events, outcome in *.
  destruct (m lib w) as [[[e1|a] w1] l1]; cbn in *.
  - intro H. destruct (Hm pre r e post H) as [Hpost Hout].
    split; [exact Hpost | congruence].
  - specialize (Hk a lib w1). unfold events, outcome in Hk.
    destruct (k a lib w1) as [[r2 w2] l2]; cbn in *.
    intro H. apply app_eq_app in H as [l [[H1 H2]|[H1 H2]]].
    + destruct l as [|ev l].
      * cbn in H2. apply (Hk [] r e post). now symmetry.
      * cbn in H2. injection H2 as <- ->.
        destruct (Hm pre r e l H1) as [_ Habsurd]. discriminate Habsurd.
    + apply (Hk l r e post H2).
Qed.

Lemma propagates_for_each {A} (xs : list A) (body : A -> M W unit) :
  (forall x, propagates (body x)) -> propagates (for_each xs body).
Proof.
  intro Hbody. induction xs as [|x xs IH]; cbn.
  - apply propagates_ret.
  - apply propagates_bind; [apply Hbody | intros _; exact IH].
Qed.

Lemma propagates_str (v : value) : propagates (@str W v).
Proof.
  assert (Hask : propagates
            (bind (@ask W (Str v))
               (fun t => match t with
                         | VStr s => ret s
                         | _ => raise (Exception "TypeError" "__format__ must return a str")
                         end))).
  { apply propagates_bind; [apply propagates_ask|].
    intros []; first [apply propagates_ret | apply propagates_raise]. }
  destruct v; try exact Hask. apply propagates_ret.
Qed.

Lemma propagates_strs (vs : list value) : propagates (@strs W vs).
Proof.
  induction vs as [|v vs IH]; cbn.
  - apply propagates_ret.
  - apply propagates_bind; [apply propagates_str|]. intros s.
    apply propagates_bind; [exact IH|]. intros ss. apply propagates_ret.
Qed.

Lemma propagates_format (template : string) (args : list value) :
  propagates (@format W template args).
Proof.
  apply propagates_bind; [apply propagates_strs | intros; apply propagates_ret].
Qed.

Lemma propagates_print (v : value) : propagates (@print W v).
Proof.
  apply propagates_bind; [apply propagates_str | intros; apply propagates_emit].
Qed.

Lemma propagates_two (items : list value) : propagates (@two W items).
Proof.
  destruct items as [|a [|b [|c items]]];
    first [apply propagates_ret | apply propagates_raise].
Qed.

Lemma propagates_unpack2 (v : value) : propagates (@unpack2 W v).
Proof.
  assert (Hask : propagates
            (bind (@ask W (Iter v))
               (fun it => match it with
                          | VTuple items | VList items => two items
                          | _ => raise (Exception "TypeError" "iter() returned non-iterator")
                          end))).
  { apply propagates_bind; [apply propagates_ask|].
    intros []; first [apply propagates_two | apply propagates_raise]. }
  destruct v; try exact Hask; apply propagates_two.
Qed.

End Propagation.

Create HintDb propagation.

#[local] Hint Resolve propagates_ret propagates_raise propagates_emit propagates_ask
  propagates_str propagates_strs propagates_format propagates_print propagates_unpack2
  : propagation.

(** Takes a straight-line program apart: every bind, every loop, every
    pattern of a bound pair. *)
Ltac propagation :=
  repeat first
    [ progress auto with propagation
    | progress cbv zeta
    | apply propagates_bind
    | apply propagates_for_each
    | match goal with
      | |- context [let (_, _) := ?p in _] => destruct p
      | |- forall _, _ => intro
      end ].

Lemma QubitMappings_propagates (W : Type) : propagates (@QubitMappings.notebook W).
Proof.
  unfold QubitMappings.notebook, QubitMappings.cell_1, QubitMappings.cell_2,
    QubitMappings.cell_3, QubitMappings.cell_4, QubitMappings.cell_5,
    QubitMappings.exact_step, QubitMappings.vqe_step.
  propagation.
Qed.

Lemma ParticleHoleTransformation_propagates (W : Type) :
  propagates (@ParticleHoleTransformation.notebook W).
Proof.
  unfold ParticleHoleTransformation.notebook, ParticleHoleTransformation.cell_1,
    ParticleHoleTransformation.cell_2, ParticleHoleTransformation.cell_3,
    ParticleHoleTransformation.cell_4, ParticleHoleTransformation.cell_5.
  propagation.
Qed.

(** C7.  The notebooks handle no exception: whichever request to the library
    raises in a run of either notebook, no event follows it (no retry, no
    later call, no print) and the exception is the outcome of the run. *)
Theorem library_exception_ends_the_run
    (W : Type) (notebook : M W unit) (lib : oracle W) (w : W)
    (pre : list event) (r : request) (e : exn) (post : list event) :
  In notebook [QubitMappings.notebook; ParticleHoleTransformation.notebook] ->
  events (notebook lib w) = pre ++ Requested r (inl e) :: post ->
  post = [] /\ outcome (notebook lib w) = inl e.
Proof.
  intros [<-|[<-|[]]].
  - apply QubitMappings_propagates.
  - apply ParticleHoleTransformation_propagates.
Qed.

(** The stored run of QubitMappings, had [driver.run()] raised: the run ends
    there with that exception. *)
Lemma driver_failure_ends_QubitMappings :
  let e := Exception "QiskitChemistryError" "driver failed" in
  let run := QubitMappings.notebook Replay.scripted
               (Replay.failing_at 14 e Replay.QubitMappings_run) in
  @nil event = [] /\ outcome run = inl e.
Proof.
  exact (library_exception_ends_the_run _ QubitMappings.notebook Replay.scripted
           (Replay.failing_at 14 (Exception "QiskitChemistryError" "driver failed")
              Replay.QubitMappings_run)
           (firstn 14 (events (QubitMappings.notebook Replay.scripted
                                 Replay.QubitMappings_run)))
           (CallMethod (VObj 3) "run" [] [])
           (Exception "QiskitChemistryError" "driver failed")
           []
           (or_introl eq_refl)
           eq_refl).
Defined.

(** ** What the runs report *)


Section Quiet.
Context {W : Type}.
Variable P : request -> bool.

Lemma quiet_ret {A} (a : A) : quiet P (@ret W A a).
Proof. intros lib w. reflexivity. Qed.

Lemma quiet_raise {A} (e : exn) : quiet P (@raise W A e).
Proof. intros lib w. reflexivity. Qed.

Lemma quiet_emit (s : string) : quiet P (@emit W s).
Proof. intros lib w. reflexivity. Qed.

Lemma quiet_ask (r : request) : P r = false -> quiet P (@ask W r).
Proof.
  intros Hr lib w. unfold ask, events. destruct (lib r w) as [answer w1]. cbn.
  now rewrite Hr.
Qed.

Lemma quiet_bind {A B} (m : M W A) (k : A -> M W B) :
  quiet P m -> (forall a, quiet P (k a)) -> quiet P (bind m k).
Proof.
  intros Hm Hk lib w. specialize (Hm lib w). unfold bind, events, asked in *.
  destruct (m lib w) as [[[e|a] w1] l1]; cbn in *; [exact Hm|].
  specialize (Hk a lib w1). unfold events, asked in Hk.
  destruct (k a lib w1) as [[r2 w2] l2]; cbn in *.
  rewrite existsb_app, Hm, Hk. reflexivity.
Qed.

Lemma quiet_for_each {A} (xs : list A) (body : A -> M W unit) :
  (forall x, quiet P (body x)) -> quiet P (for_each xs body).
Proof.
  intro Hbody. induction xs as [|x xs IH]; cbn.
  - apply quiet_ret.
  - apply quiet_bind; [apply Hbody | intros _; exact IH].
Qed.

Hypothesis P_str : forall v, P (Str v) = false.

Lemma quiet_str (v : value) : quiet P (@str W v).
Proof.
  assert (Hask : quiet P
            (bind (@ask W (Str v))
               (fun t => match t with
                         | VStr s => ret s
                         | _ => raise (Exception "TypeError" "__format__ must return a str")
                         end))).
  { apply quiet_bind; [apply quiet_ask, P_str|].
    intros []; first [apply quiet_ret | apply quiet_raise]. }
  destruct v; try exact Hask. apply quiet_ret.
Qed.

Lemma quiet_strs (vs : list value) : quiet P (@strs W vs).
Proof.
  induction vs as [|v vs IH]; cbn.
  - apply quiet_ret.
  - apply quiet_bind; [apply quiet_str|]. intros s.
    apply quiet_bind; [exact IH|]. intros ss. apply quiet_ret.
Qed.

Lemma quiet_format (template : string) (args : list value) :
  quiet P (@format W template args).
Proof. apply quiet_bind; [apply quiet_strs | intros; apply quiet_ret]. Qed.

Lemma quiet_print (v : value) : quiet P (@print W v).
Proof. apply quiet_bind; [apply quiet_str | intros; apply quiet_emit]. Qed.

Lemma quiet_two (items : list value) : quiet P (@two W items).
Proof.
  destruct items as [|a [|b [|c items]]]; first [apply quiet_ret | apply quiet_raise].
Qed.

Hypothesis P_iter : forall v, P (Iter v) = false.

Lemma quiet_unpack2 (v : value) : quiet P (@unpack2 W v).
Proof.
  assert (Hask : quiet P
            (bind (@ask W (Iter v))
               (fun it => match it with
                          | VTuple items | VList items => two items
                          | _ => raise (Exception "TypeError" "iter() returned non-iterator")
                          end))).
  { apply quiet_bind; [apply quiet_ask, P_iter|].
    intros []; first [apply quiet_two | apply quiet_raise]. }
  destruct v; try exact Hask; apply quiet_two.
Qed.

End Quiet.

(** Takes a straight-line program apart, as [propagation] does; a request
    is settled by evaluating the test on it. *)
Ltac quietness :=
  repeat first
    [ apply quiet_ret | apply quiet_emit
    | apply quiet_format; [reflexivity]
    | apply quiet_print; [reflexivity]
    | apply quiet_unpack2; [reflexivity]
    | apply quiet_ask; reflexivity
    | progress cbv zeta
    | apply quiet_bind
    | apply quiet_for_each
    | match goal with
      | |- context [let (_, _) := ?p in _] => destruct p
      | |- forall _, _ => intro
      end ].

(** QubitMappings never reads [results['opt_params']], whatever the library
    answers. *)
Lemma QubitMappings_never_reads_opt_params (W : Type) :
  quiet (reads "opt_params") (@QubitMappings.notebook W).
Proof.
  unfold QubitMappings.notebook, QubitMappings.cell_1, QubitMappings.cell_2,
    QubitMappings.cell_3, QubitMappings.cell_4, QubitMappings.cell_5,
    QubitMappings.exact_step, QubitMappings.vqe_step.
  quietness.
Qed.

Lemma value_eqb_refl : forall v, value_eqb v v = true.
Proof.
  fix IH 1. intros [| s | n | q | s | items | items | i]; cbn.
  - reflexivity.
  - apply String.eqb_refl.
  - apply Z.eqb_refl.
  - now rewrite Z.eqb_refl, Pos.eqb_refl.
  - apply String.eqb_refl.
  - revert items. fix IHl 1. intros [|x xs]; [reflexivity|].
    now rewrite (IH x), (IHl xs).
  - revert items. fix IHl 1. intros [|x xs]; [reflexivity|].
    now rewrite (IH x), (IHl xs).
  - apply Nat.eqb_refl.
Qed.

(** A needle is contained in whatever is written around it. *)
Lemma strip_prefix_app (p s : string) : Text.strip_prefix p (p ++ s) = Some s.
Proof.
  induction p as [|a p IH]; cbn; [now destruct s|].
  now rewrite Ascii.eqb_refl.
Qed.

Lemma contains_app (needle pre post : string) :
  Text.contains needle (pre ++ needle ++ post) = true.
Proof.
  induction pre as [|a pre IH].
  - change ("" ++ needle ++ post)%string with (needle ++ post)%string.
    destruct (needle ++ post)%string eqn:E; cbn;
      rewrite <- E, strip_prefix_app; reflexivity.
  - cbn [append Text.contains].
    destruct (Text.strip_prefix needle (String a (pre ++ needle ++ post))); [reflexivity|].
    exact IH.
Qed.

Section Runs.
Context {W : Type}.

Lemma completed {A} (m : M W A) lib w a :
  outcome (m lib w) = inr a -> exists w1, runs m lib w a w1 (events (m lib w)).
Proof.
  unfold outcome, events, runs. destruct (m lib w) as [[r w1] l]; cbn.
  intros ->. now exists w1.
Qed.

Lemma runs_ret {A} (a b : A) (lib : oracle W) w w1 l :
  runs (ret a) lib w b w1 l -> b = a /\ l = [].
Proof. unfold runs, ret. intro H. injection H as <- _ <-. now split. Qed.

Lemma runs_emit (s : string) (lib : oracle W) w u w1 l :
  runs (emit s) lib w u w1 l -> l = [Printed s].
Proof. unfold runs, emit. intro H. now injection H as _ _ <-. Qed.

Lemma runs_ask (r : request) (lib : oracle W) w v w1 l :
  runs (ask r) lib w v w1 l -> l = [Requested r (inr v)].
Proof.
  unfold runs, ask. destruct (lib r w) as [answer w2]. intro H.
  now injection H as -> _ <-.
Qed.

Lemma runs_bind {A B} (m : M W A) (k : A -> M W B) lib w b w2 l :
  runs (bind m k) lib w b w2 l ->
  exists a w1 l1 l2, runs m lib w a w1 l1 /\ runs (k a) lib w1 b w2 l2 /\ l = l1 ++ l2.
Proof.
  unfold runs, bind. destruct (m lib w) as [[[e|a] w1] l1]; [discriminate|].
  destruct (k a lib w1) as [[r w3] l2] eqn:Hk. intro H. injection H as -> -> <-.
  now exists a, w1, l1, l2.
Qed.

(** The text of a value: its own if it is a string, else the one the
    library gave. *)
Lemma runs_str (v : value) (lib : oracle W) w s w1 l :
  runs (str v) lib w s w1 l ->
  (v = VStr s /\ l = []) \/ l = [Requested (Str v) (inr (VStr s))].
Proof.
  assert (Hask : runs (bind (ask (Str v))
                         (fun t => match t with
                                   | VStr s => ret s
                                   | _ => raise (Exception "TypeError"
                                                   "__format__ must return a str")
                                   end)) lib w s w1 l ->
                 l = [Requested (Str v) (inr (VStr s))]).
  { intro H. apply runs_bind in H as (t & w2 & l1 & l2 & H1 & H2 & ->).
    apply runs_ask in H1 as ->.
    destruct t; try discriminate H2. apply runs_ret in H2 as [-> ->]. reflexivity. }
  destruct v; try (intro H; right; exact (Hask H)).
  intro H. apply runs_ret in H as [-> ->]. now left.
Qed.

End Runs.

(** Takes a completed run of a straight-line program apart into the runs of
    its requests and prints. *)
Ltac invert_run H :=
  lazymatch type of H with
  | runs (bind _ _) _ _ _ _ _ =>
      let a := fresh "v" in
      let w1 := fresh "w" in
      let l1 := fresh "l" in
      let l2 := fresh "l" in
      let H1 := fresh "H" in
      let H2 := fresh "H" in
      apply runs_bind in H as (a & w1 & l1 & l2 & H1 & H2 & ->);
      invert_run H1; cbv beta in H2; invert_run H2
  | runs (ret _) _ _ _ _ _ =>
      let E := fresh "E" in
      apply runs_ret in H as [E ->]; try subst
  | runs (ask _) _ _ _ _ _ => apply runs_ask in H as ->
  | runs (emit _) _ _ _ _ _ => apply runs_emit in H as ->
  | runs (str (VStr _)) _ _ _ _ _ => cbn [str] in H; invert_run H
  | runs (str _) _ _ _ _ _ => apply runs_str in H as [[-> ->] | ->]
  | runs (format _ _) _ _ _ _ _ => unfold format in H; invert_run H
  | runs (print _) _ _ _ _ _ => unfold print in H; invert_run H
  | runs (strs _) _ _ _ _ _ => cbn [strs] in H; invert_run H
  | runs (for_each _ _) _ _ _ _ _ => cbn [for_each] in H; invert_run H
  | runs (let (_, _) := ?p in _) _ _ _ _ _ => destruct p; invert_run H
  | _ => idtac
  end.

Lemma contains_here (s post : string) : Text.contains s (s ++ post) = true.
Proof. exact (contains_app s "" post). Qed.

Lemma contains_cons (s t : string) (c : ascii) :
  Text.contains s t = true -> Text.contains s (String c t) = true.
Proof.
  intro H. cbn [Text.contains].
  destruct (Text.strip_prefix s (String c t)); [reflexivity | exact H].
Qed.

Lemma contains_skip (s pre t : string) :
  Text.contains s t = true -> Text.contains s (pre ++ t) = true.
Proof.
  intro H. induction pre as [|c pre IH]; [exact H|].
  cbn [append]. now apply contains_cons.
Qed.

(** The text that fills a field of a template is contained in the line. *)
Ltac contained :=
  cbn [Text.format append];
  repeat first [ apply contains_here | apply contains_cons | apply contains_skip ].

Lemma written_asked (v : value) (s line : string) (rest : list event) :
  Text.contains s line = true ->
  written v (Requested (Str v) (inr (VStr s)) :: Printed line :: rest) = true.
Proof.
  intro H. cbn [written printed existsb]. now rewrite value_eqb_refl, H.
Qed.

Lemma written_string (s line : string) (rest : list event) :
  Text.contains s line = true -> written (VStr s) (Printed line :: rest) = true.
Proof. intro H. cbn [written]. now rewrite H. Qed.

Lemma energy_reported_direct (results eigvals eigval : value) (l : list event) :
  written eigval l = true ->
  energy_reported
    (results, Requested (GetItem results (VStr "eigvals")) (inr eigvals)
              :: Requested (GetItem eigvals (VInt 0)) (inr eigval) :: l) = true.
Proof.
  intro H. repeat (progress (cbn; rewrite ?value_eqb_refl)).
  now rewrite H.
Qed.

Lemma energy_reported_real (results eigvals eigval real : value) (l : list event) :
  written real l = true ->
  energy_reported
    (results, Requested (GetItem results (VStr "eigvals")) (inr eigvals)
              :: Requested (GetItem eigvals (VInt 0)) (inr eigval)
              :: Requested (GetAttr eigval "real") (inr real) :: l) = true.
Proof.
  intro H. repeat (progress (cbn; rewrite ?value_eqb_refl)).
  rewrite H. now rewrite orb_true_r.
Qed.

Lemma items_here (obj key v : value) (pre post : list event) :
  In (v, post) (items obj key (pre ++ Requested (GetItem obj key) (inr v) :: post)).
Proof.
  induction pre as [|ev pre IH].
  - cbn. rewrite !value_eqb_refl. now left.
  - cbn [app items]. destruct ev as [[] [|]|]; try exact IH.
    destruct (value_eqb key0 key && value_eqb obj0 obj); [right|]; exact IH.
Qed.

Lemma parameters_reported_later (results opt_params : value) (pre l : list event) :
  written opt_params l = true ->
  parameters_reported
    (results, pre ++ Requested (GetItem results (VStr "opt_params")) (inr opt_params) :: l)
  = true.
Proof.
  intro H. unfold parameters_reported. apply existsb_exists.
  exists (opt_params, l). split; [apply items_here | exact H].
Qed.

Lemma parameters_reported_here (results opt_params : value) (l : list event) :
  written opt_params l = true ->
  parameters_reported
    (results, Requested (GetItem results (VStr "opt_params")) (inr opt_params) :: l) = true.
Proof. exact (parameters_reported_later results opt_params [] l). Qed.

Lemma parameters_reported_skip (results : value) (ev : event) (l : list event) :
  parameters_reported (results, l) = true -> parameters_reported (results, ev :: l) = true.
Proof.
  unfold parameters_reported. intro H. apply existsb_exists in H as [x [Hin Hx]].
  apply existsb_exists. exists x. split; [|exact Hx].
  cbn [items]. destruct ev as [[] [|]|]; try exact Hin.
  destruct (value_eqb key (VStr "opt_params") && value_eqb obj results); [right|]; exact Hin.
Qed.

(** Events that make no VQE object and come before any was made hold no VQE
    run. *)
Lemma vqe_runs_before (l rest : list event) :
  asked (calls "VQE") l = false -> vqe_runs [] (l ++ rest) = vqe_runs [] rest.
Proof.
  unfold asked. induction l as [|ev l IH]; [reflexivity|].
  cbn [existsb app vqe_runs]. intro H. apply orb_false_elim in H as [Hev Hl].
  specialize (IH Hl).
  destruct ev as [r answer|s]; [|exact IH].
  destruct r; try destruct callee; destruct answer as [err|ans];
    cbn [made calls] in *; rewrite ?Hev, ?andb_false_r; exact IH.
Qed.

Section Steps.
Context {W : Type}.
Variables (lib : oracle W) (w w1 : W) (l : list event).

Ltac evaluate := repeat (progress (cbn; rewrite ?value_eqb_refl)).
Ltac text_written := first [apply written_asked | apply written_string]; contained.

(** A completed pass of the loop of the fifth cell of QubitMappings: one
    VQE object is made, it is run once, eight events into the pass, and what
    follows reports the energy. *)
Lemma QubitMappings_vqe_step (qubit_op : value) (name : string) :
  runs (QubitMappings.vqe_step (qubit_op, VStr name)) lib w tt w1 l ->
  exists vqe results,
    (forall vqes rest,
        vqe_runs vqes (l ++ rest)
        = (results, skipn 8 l ++ rest) :: vqe_runs (vqe :: vqes) rest) /\
    (forall rest, energy_reported (results, skipn 8 l ++ rest) = true).
Proof.
  unfold QubitMappings.vqe_step. intro H. invert_run H.
  all: do 2 eexists; split; intros;
    [ evaluate; reflexivity
    | cbn [skipn app]; apply energy_reported_direct; text_written ].
Qed.

(** A completed run of the fifth cell of ParticleHoleTransformation: the
    same, and what follows the run reports the parameters as well. *)
Lemma ParticleHoleTransformation_cell_5 (energy_shift newqubitOp_jw : value) :
  runs (ParticleHoleTransformation.cell_5 energy_shift newqubitOp_jw) lib w tt w1 l ->
  exists vqe results,
    (forall vqes rest,
        vqe_runs vqes (l ++ rest)
        = (results, skipn 8 l ++ rest) :: vqe_runs (vqe :: vqes) rest) /\
    (forall rest, energy_reported (results, skipn 8 l ++ rest) = true
                  /\ parameters_reported (results, skipn 8 l ++ rest) = true).
Proof.
  unfold ParticleHoleTransformation.cell_5. intro H. invert_run H.
  all: do 2 eexists; split; intros;
    [ evaluate; reflexivity
    | cbn [skipn app]; split;
      [ apply energy_reported_real; text_written
      | repeat first [ apply parameters_reported_here | apply parameters_reported_skip ];
        text_written ] ].
Qed.

End Steps.

Section Notebooks.
Context {W : Type}.
Variables (lib : oracle W) (w : W).

Lemma quiet_runs {A} (P : request -> bool) (m : M W A) (lib0 : oracle W) w0 a w1 l :
  quiet P m -> runs m lib0 w0 a w1 l -> asked P l = false.
Proof.
  intros Hq Hr. specialize (Hq lib0 w0). unfold runs in Hr. unfold events in Hq.
  now rewrite Hr in Hq.
Qed.

Lemma cell_4_returns (jw pa bk : value) (lib0 : oracle W) w0 qubit_ops w1 l :
  runs (QubitMappings.cell_4 jw pa bk) lib0 w0 qubit_ops w1 l ->
  qubit_ops = [(jw, VStr "jordan wigner"); (pa, VStr "parity"); (bk, VStr "bravyi-kitaev")].
Proof.
  unfold QubitMappings.cell_4. cbv zeta. intro H.
  apply runs_bind in H as (u & w2 & l1 & l2 & _ & H & _).
  now apply runs_ret in H as [-> _].
Qed.

(** The events before the last code cell make no VQE object. *)
Ltac before_vqe :=
  repeat (rewrite vqe_runs_before
            by (eapply quiet_runs; [|eassumption];
                unfold QubitMappings.cell_1, QubitMappings.cell_2, QubitMappings.cell_3,
                  QubitMappings.cell_4, QubitMappings.exact_step,
                  ParticleHoleTransformation.cell_1, ParticleHoleTransformation.cell_2,
                  ParticleHoleTransformation.cell_3, ParticleHoleTransformation.cell_4;
                quietness)).

Lemma QubitMappings_vqe_runs :
  outcome (QubitMappings.notebook lib w) = inr tt ->
  exists run1 run2 run3,
    vqe_runs [] (events (QubitMappings.notebook lib w)) = [run1; run2; run3] /\
    energy_reported run1 = true /\ energy_reported run2 = true /\ energy_reported run3 = true.
Proof.
  intro H. apply completed in H as [w1 H].
  generalize dependent (events (QubitMappings.notebook lib w)). intros l H.
  unfold QubitMappings.notebook in H. invert_run H.
  match goal with
  | H4 : runs (QubitMappings.cell_4 _ _ _) _ _ _ _ _ |- _ =>
      pose proof (cell_4_returns _ _ _ _ _ _ _ _ H4); subst
  end.
  match goal with
  | H5 : runs (QubitMappings.cell_5 _) _ _ _ _ _ |- _ =>
      unfold QubitMappings.cell_5 in H5; invert_run H5
  end.
  before_vqe.
  repeat match goal with u : unit |- _ => destruct u end.
  repeat match goal with
         | Hs : runs (QubitMappings.vqe_step _) _ _ _ _ _ |- _ =>
             apply QubitMappings_vqe_step in Hs as (? & ? & ? & ?)
         end.
  repeat match goal with
         | E : forall vqes rest, vqe_runs vqes (_ ++ rest) = _ |- _ => rewrite E; clear E
         end.
  cbn [vqe_runs]. do 3 eexists. split; [reflexivity|]. auto.
Qed.

Lemma ParticleHoleTransformation_vqe_runs :
  outcome (ParticleHoleTransformation.notebook lib w) = inr tt ->
  exists run,
    vqe_runs [] (events (ParticleHoleTransformation.notebook lib w)) = [run] /\
    energy_reported run = true /\ parameters_reported run = true.
Proof.
  intro H. apply completed in H as [w1 H].
  generalize dependent (events (ParticleHoleTransformation.notebook lib w)). intros l H.
  unfold ParticleHoleTransformation.notebook in H. invert_run H.
  before_vqe.
  match goal with
  | H5 : runs (ParticleHoleTransformation.cell_5 _ _) _ _ _ _ ?l5 |- _ =>
      apply ParticleHoleTransformation_cell_5 in H5 as (? & ? & E & R);
      rewrite <- (app_nil_r l5), E
  end.
  cbn [vqe_runs]. eexists. split; [reflexivity|]. apply R.
Qed.

End Notebooks.

(** C8, as stated, fails on the stored run of QubitMappings: the run
    completes, VQE is run three times, and not every run is followed by a
    print of its energy and of its parameters. *)
Lemma QubitMappings_does_not_print_parameters :
  let run := QubitMappings.notebook Replay.scripted Replay.QubitMappings_run in
  outcome run = inr tt /\
  List.length (vqe_runs [] (events run)) = 3%nat /\
  reports_energy_and_parameters (events run) = false.
Proof. vm_compute. repeat split; reflexivity. Qed.

(** C8, amended.  In a run that completes, each VQE run (three in
    QubitMappings, one in ParticleHoleTransformation) is followed by a print
    of its minimum energy, [results['eigvals'][0]] or its real part.  The
    optimized parameters [results['opt_params']] are printed after the run
    of ParticleHoleTransformation only: QubitMappings never reads them. *)
Theorem vqe_runs_report_energy
    (W1 W2 : Type) (lib1 : oracle W1) (w1 : W1) (lib2 : oracle W2) (w2 : W2) :
  outcome (QubitMappings.notebook lib1 w1) = inr tt ->
  outcome (ParticleHoleTransformation.notebook lib2 w2) = inr tt ->
  let qm := events (QubitMappings.notebook lib1 w1) in
  let ph := events (ParticleHoleTransformation.notebook lib2 w2) in
  (List.length (vqe_runs [] qm) = 3%nat /\
   reports_energy qm = true /\
   asked (reads "opt_params") qm = false) /\
  (List.length (vqe_runs [] ph) = 1%nat /\
   reports_energy_and_parameters ph = true).
Proof.
  intros H1 H2 qm ph. subst qm ph. split.
  - destruct (QubitMappings_vqe_runs lib1 w1 H1) as (r1 & r2 & r3 & E & R1 & R2 & R3).
    unfold reports_energy. rewrite E. cbn [List.length forallb]. rewrite R1, R2, R3.
    repeat split. apply QubitMappings_never_reads_opt_params.
  - destruct (ParticleHoleTransformation_vqe_runs lib2 w2 H2) as (r & E & R & P).
    unfold reports_energy_and_parameters. rewrite E. cbn [List.length forallb].
    rewrite R, P. now split.
Qed.

(** The two stored runs complete, so the above holds of them. *)
Lemma stored_runs_report_energy :
  let qm := events (QubitMappings.notebook Replay.scripted Replay.QubitMappings_run) in
  let ph := events (ParticleHoleTransformation.notebook Replay.scripted
                      Replay.ParticleHoleTransformation_run) in
  (List.length (vqe_runs [] qm) = 3%nat /\
   reports_energy qm = true /\
   asked (reads "opt_params") qm = false) /\
  (List.length (vqe_runs [] ph) = 1%nat /\
   reports_energy_and_parameters ph = true).
Proof.
  exact (vqe_runs_report_energy _ _
           Replay.scripted Replay.QubitMappings_run
           Replay.scripted Replay.ParticleHoleTransformation_run
           eq_refl eq_refl).
Defined.

(** ** The requests and prints of a completed run *)

Import Trace.

Ltac unfold_cells :=
  unfold QubitMappings.notebook, QubitMappings.cell_1, QubitMappings.cell_2,
    QubitMappings.cell_3, QubitMappings.cell_4, QubitMappings.cell_5,
    QubitMappings.exact_step, QubitMappings.vqe_step,
    ParticleHoleTransformation.notebook, ParticleHoleTransformation.cell_1,
    ParticleHoleTransformation.cell_2, ParticleHoleTransformation.cell_3,
    ParticleHoleTransformation.cell_4, ParticleHoleTransformation.cell_5.

Section Tracing.
Context {W : Type}.

Lemma runs_str_events (v : value) (lib : oracle W) w s w1 l :
  runs (str v) lib w s w1 l -> l = str_events v s.
Proof.
  destruct v; cbn [str str_events]; intro H;
    try (apply runs_bind in H as (t & w2 & l1 & l2 & H1 & H2 & ->);
         apply runs_ask in H1 as ->;
         destruct t; try discriminate H2;
         apply runs_ret in H2 as [-> ->]; reflexivity).
  now apply runs_ret in H as [_ ->].
Qed.

(** The same, with where the text comes from. *)
Lemma runs_str_text (v : value) (lib : oracle W) w s w1 l :
  runs (str v) lib w s w1 l -> l = str_events v s /\ text_in (str_events v s) v s.
Proof.
  intro H. split; [now apply runs_str_events in H|].
  destruct v; try (right; left; reflexivity).
  left. cbn [str] in H. apply runs_ret in H as [-> _]. reflexivity.
Qed.

Lemma runs_two (items : list value) (lib : oracle W) w a b w1 l :
  runs (two items) lib w (a, b) w1 l -> l = [] /\ items = [a; b].
Proof.
  destruct items as [|x [|y [|z items]]]; try discriminate.
  intro H. apply runs_ret in H as [E ->]. now injection E as -> ->.
Qed.

Lemma runs_unpack2 (v : value) (lib : oracle W) w a b w1 l :
  runs (unpack2 v) lib w (a, b) w1 l ->
  (l = [] /\ as_pair v = [(a, b)])
  \/ (exists it, l = [Requested (Iter v) (inr it)] /\ as_pair v = []
                 /\ as_pair it = [(a, b)]).
Proof.
  assert (Hask : runs (bind (ask (Iter v))
                         (fun it => match it with
                                    | VTuple items | VList items => two items
                                    | _ => raise (Exception "TypeError"
                                                    "iter() returned non-iterator")
                                    end)) lib w (a, b) w1 l ->
                 exists it, l = [Requested (Iter v) (inr it)] /\ as_pair it = [(a, b)]).
  { intro H. apply runs_bind in H as (it & w2 & l1 & l2 & H1 & H2 & ->).
    apply runs_ask in H1 as ->. exists it.
    destruct it; try discriminate H2; apply runs_two in H2 as [-> ->]; now split. }
  destruct v; cbn [unpack2]; intro H;
    try (right; destruct (Hask H) as (it & -> & Hit); exists it; now repeat split);
    left; apply runs_two in H as [-> ->]; now split.
Qed.

Lemma collect_app {A} (f : request -> value -> list A) (l1 l2 : list event) :
  collect f (l1 ++ l2) = collect f l1 ++ collect f l2.
Proof. apply flat_map_app. Qed.

Lemma collect_str_events {A} (f : request -> value -> list A) (v : value) (s : string) :
  f (Str v) (VStr s) = [] -> collect f (str_events v s) = [].
Proof. intro H. destruct v; cbn; rewrite ?H; reflexivity. Qed.

Lemma printed_app (l1 l2 : list event) : printed (l1 ++ l2) = printed l1 ++ printed l2.
Proof.
  induction l1 as [|[r answer|s] l1 IH]; cbn; [reflexivity | exact IH | now rewrite IH].
Qed.

Lemma printed_str_events (v : value) (s : string) : printed (str_events v s) = [].
Proof. now destruct v. Qed.

Lemma collect_events_of {A} (f : request -> value -> list A) (t : tree) :
  (forall v a, f (Str v) a = []) -> collect f (events_of t) = collect f (flatten t).
Proof.
  intro Hf. induction t as [|ev|v s|a IHa b IHb]; cbn [events_of flatten].
  - reflexivity.
  - reflexivity.
  - apply collect_str_events, Hf.
  - now rewrite !collect_app, IHa, IHb.
Qed.

Lemma printed_events_of (t : tree) : printed (events_of t) = printed (flatten t).
Proof.
  induction t as [|ev|v s|a IHa b IHb]; cbn [events_of flatten].
  - reflexivity.
  - reflexivity.
  - apply printed_str_events.
  - now rewrite !printed_app, IHa, IHb.
Qed.



End Tracing.

Ltac unfold_cells_in H :=
  unfold QubitMappings.notebook, QubitMappings.cell_1, QubitMappings.cell_2,
    QubitMappings.cell_3, QubitMappings.cell_4, QubitMappings.cell_5,
    QubitMappings.exact_step, QubitMappings.vqe_step,
    ParticleHoleTransformation.notebook, ParticleHoleTransformation.cell_1,
    ParticleHoleTransformation.cell_2, ParticleHoleTransformation.cell_3,
    ParticleHoleTransformation.cell_4, ParticleHoleTransformation.cell_5 in H.

(** Takes a completed run apart without distinguishing how a text was
    obtained: the events of [str] stay [str_events], and where the text
    comes from is kept aside. *)
Ltac trace_run H :=
  lazymatch type of H with
  | runs (bind _ _) _ _ _ _ _ =>
      let a := fresh "v" in
      let w1 := fresh "w" in
      let l1 := fresh "l" in
      let l2 := fresh "l" in
      let H1 := fresh "H" in
      let H2 := fresh "H" in
      apply runs_bind in H as (a & w1 & l1 & l2 & H1 & H2 & ->);
      trace_run H1; cbv beta in H2; trace_run H2
  | runs (ret _) _ _ ?b _ _ =>
      let E := fresh "E" in
      apply runs_ret in H as [E ->]; first [is_var b; subst b | clear E]
  | runs (ask _) _ _ _ _ _ => apply runs_ask in H as ->
  | runs (emit _) _ _ _ _ _ => apply runs_emit in H as ->
  | runs (str (VStr _)) _ _ _ _ _ => cbn [str] in H; trace_run H
  | runs (str _) _ _ _ _ _ =>
      let Ht := fresh "Ht" in
      apply runs_str_text in H as [-> Ht]
  | runs (unpack2 _) _ _ (_, _) _ _ =>
      let it := fresh "it" in
      let Hv := fresh "Hv" in
      let Hit := fresh "Hit" in
      apply runs_unpack2 in H as [[-> Hv]|(it & -> & Hv & Hit)]
  | runs (unpack2 _) _ _ ?p _ _ => is_var p; destruct p; trace_run H
  | runs (format _ _) _ _ _ _ _ => unfold format in H; trace_run H
  | runs (print _) _ _ _ _ _ => unfold print in H; trace_run H
  | runs (strs _) _ _ _ _ _ => cbn [strs] in H; trace_run H
  | runs (for_each _ _) _ _ _ _ _ => cbn [for_each] in H; trace_run H
  | runs (let (_, _) := ?p in _) _ _ _ _ _ => destruct p; trace_run H
  | _ => idtac
  end.

Ltac tree_of l :=
  lazymatch l with
  | ?a ++ ?b =>
      let ta := tree_of a in
      let tb := tree_of b in
      constr:(App ta tb)
  | str_events ?v ?s => constr:(Text v s)
  | @nil _ => constr:(Nil)
  | [?e] => constr:(One e)
  end.

(** From a completed run of a notebook to its events, step by step; what is
    then collected from them, or printed by them, is evaluated. *)
Ltac trace H :=
  let w1 := fresh "w" in
  let l := fresh "l" in
  let l0 := fresh "l" in
  let El := fresh "El" in
  apply completed in H as [w1 H]; cbv zeta;
  match type of H with
  | runs _ _ _ _ _ ?evs => generalize dependent evs; intros l H
  end;
  remember l as l0 eqn:El in |- *;
  unfold_cells_in H; trace_run H;
  match type of El with
  | _ = ?l' => let t := tree_of l' in change (l0 = events_of t) in El
  end;
  subst l0;
  unfold made_by, operands, arguments, receivers, returned, passed, keyword, given,
    attributes, subscripts, subtractions, differences, transformed;
  rewrite ?printed_events_of;
  rewrite ?collect_events_of by (intros; reflexivity).

Ltac conjuncts := repeat match goal with |- _ /\ _ => split end.



Section Traces.
Context {W : Type}.
Variables (lib : oracle W) (w : W).



(** In a completed run of QubitMappings one FermionicOperator is made, from
    the two integrals read off the molecule the driver returned; it is
    mapped three times, as JORDAN_WIGNER, PARITY and BRAVYI_KITAEV in this
    order; and the three operators the mappings return are, in the same
    order, the ones [to_matrix], [chop] and [print_operators] are called
    on, the ones handed to ExactEigensolver, and the ones handed to VQE. *)
Theorem QubitMappings_solves_the_mapped_operators :
  outcome (QubitMappings.notebook lib w) = inr tt ->
  let l := events (QubitMappings.notebook lib w) in
  exists molecule h1 h2 ferOp qubitOp_jw qubitOp_pa qubitOp_bk,
    firstn 1 (returned "run" l) = [molecule] /\
    attributes "one_body_integrals" l = [(molecule, h1)] /\
    attributes "two_body_integrals" l = [(molecule, h2)] /\
    given "FermionicOperator" "h1" l = [h1] /\
    given "FermionicOperator" "h2" l = [h2] /\
    made_by "FermionicOperator" l = [ferOp] /\
    receivers "mapping" l = [ferOp; ferOp; ferOp] /\
    keyword "mapping" "map_type" l
    = [VStr "JORDAN_WIGNER"; VStr "PARITY"; VStr "BRAVYI_KITAEV"] /\
    returned "mapping" l = [qubitOp_jw; qubitOp_pa; qubitOp_bk] /\
    receivers "to_matrix" l = [qubitOp_jw; qubitOp_pa; qubitOp_bk] /\
    receivers "chop" l = [qubitOp_jw; qubitOp_pa; qubitOp_bk] /\
    receivers "print_operators" l = [qubitOp_jw; qubitOp_pa; qubitOp_bk] /\
    operands "ExactEigensolver" l = [qubitOp_jw; qubitOp_pa; qubitOp_bk] /\
    operands "VQE" l = [qubitOp_jw; qubitOp_pa; qubitOp_bk].
Proof.
  intro H. trace H. do 7 eexists. conjuncts; vm_compute; reflexivity.
Qed.

(** In a completed run of QubitMappings one driver, three exact
    eigensolvers and three VQE algorithms are made, and [run] is called on
    each of them once, in the order they were made, and on nothing else.
    Each VQE is made from an operator, the RY form made last before it and
    the L_BFGS_B optimizer made last before it, three of each being made;
    each RY form is made for the [num_qubits] read off the very operator its
    VQE gets.  The driver and the exact eigensolvers are run without
    arguments, each VQE on the QuantumInstance made last before it, which
    is made from the backend [get_backend] returned and the PassManager made
    last before it. *)
Theorem QubitMappings_runs_what_it_makes :
  outcome (QubitMappings.notebook lib w) = inr tt ->
  let l := events (QubitMappings.notebook lib w) in
  receivers "run" l
  = made_by "PyQuanteDriver" l ++ made_by "ExactEigensolver" l ++ made_by "VQE" l /\
  List.length (made_by "PyQuanteDriver" l) = 1%nat /\
  List.length (made_by "ExactEigensolver" l) = 3%nat /\
  List.length (made_by "VQE" l) = 3%nat /\
  List.length (made_by "RY" l) = 3%nat /\
  List.length (made_by "L_BFGS_B" l) = 3%nat /\
  List.length (made_by "QuantumInstance" l) = 3%nat /\
  arguments "VQE" l
  = map (fun '(operator, var_form, lbfgs) => [operator; var_form; lbfgs; VStr "matrix"])
        (combine (combine (operands "VQE" l) (made_by "RY" l)) (made_by "L_BFGS_B" l)) /\
  arguments "RY" l = map (fun '(_, n) => [n; VInt 5]) (attributes "num_qubits" l) /\
  map fst (attributes "num_qubits" l) = operands "VQE" l /\
  passed "run" l
  = [[]; []; []; []] ++ map (fun instance => [instance]) (made_by "QuantumInstance" l) /\
  arguments "QuantumInstance" l = map (fun backend => [backend]) (returned "get_backend" l) /\
  given "QuantumInstance" "pass_manager" l = made_by "PassManager" l.
Proof.
  intro H. trace H. conjuncts; vm_compute; reflexivity.
Qed.


End Traces.

(** ** In what order things are asked *)

Lemma asked_none (P : request -> bool) (l pre post : list event) (r : request)
    (answer : exn + value) :
  asked P l = false -> l = pre ++ Requested r answer :: post -> P r = false.
Proof.
  unfold asked. intros H ->. rewrite existsb_app in H.
  apply orb_false_elim in H as [_ H]. cbn in H. now apply orb_false_elim in H as [H _].
Qed.

Section Ordering.
Context {W : Type}.

Lemma chops_quiet {A} (m : M W A) : quiet (invokes "chop") m -> chops_matrices m.
Proof.
  intros Hq lib w pre receiver args kw answer post H.
  pose proof (asked_none _ _ _ _ _ _ (Hq lib w) H) as Habsurd. discriminate Habsurd.
Qed.

Lemma chops_bind {A B} (m : M W A) (k : A -> M W B) :
  chops_matrices m -> (forall a, chops_matrices (k a)) -> chops_matrices (bind m k).
Proof.
  intros Hm Hk lib w pre receiver args kw answer post. specialize (Hm lib w).
  unfold bind, events in *.
  destruct (m lib w) as [[[e|a] w1] l1]; cbn in *; [apply Hm|].
  specialize (Hk a lib w1). unfold events in Hk.
  destruct (k a lib w1) as [[r2 w2] l2]; cbn in *.
  intro H. apply app_eq_app in H as [l [[H1 H2]|[H1 H2]]].
  - destruct l as [|ev l].
    + cbn in H2. symmetry in H2. destruct (Hk [] receiver args kw answer post H2)
        as (pre' & matrix & Hpre). now destruct pre'.
    + cbn in H2. injection H2 as <- ->. exact (Hm pre receiver args kw answer l H1).
  - destruct (Hk l receiver args kw answer post H2) as (pre' & matrix & ->).
    exists (l1 ++ pre'), matrix. now rewrite H1, app_assoc.
Qed.

Lemma chops_for_each {A} (xs : list A) (body : A -> M W unit) :
  (forall x, chops_matrices (body x)) -> chops_matrices (for_each xs body).
Proof.
  intro Hbody. induction xs as [|x xs IH]; cbn.
  - apply chops_quiet, quiet_ret.
  - apply chops_bind; [apply Hbody | intros _; exact IH].
Qed.

(** [to_matrix] and the [chop] that follows it, as one step. *)
Lemma chops_after_to_matrix {B} (receiver : value) (args : list value) (kw : kwargs)
    (k : value -> M W B) :
  (forall a, chops_matrices (k a)) ->
  chops_matrices (bind (ask (CallMethod receiver "to_matrix" [] []))
                    (fun _ => bind (ask (CallMethod receiver "chop" args kw)) k)).
Proof.
  intros Hk lib w pre receiver' args' kw' answer post. unfold bind, ask, events.
  destruct (lib (CallMethod receiver "to_matrix" [] []) w) as [[e|matrix] w1]; cbn.
  - destruct pre as [|ev [|ev' pre]]; cbn; intro H; discriminate H.
  - destruct (lib (CallMethod receiver "chop" args kw) w1) as [[e|chopped] w2]; cbn.
    + destruct pre as [|ev [|ev' pre]]; cbn; intro H; try discriminate H.
      * injection H as Hev Hreceiver _ _ _ _. subst. now exists [], matrix.
      * destruct pre; discriminate H.
    + specialize (Hk chopped lib w2). unfold events in Hk.
      destruct (k chopped lib w2) as [[r w3] l3]. cbn in *.
      destruct pre as [|ev [|ev' pre]]; cbn; intro H; try discriminate H.
      * injection H as Hev Hreceiver _ _ _ _. subst. now exists [], matrix.
      * injection H as <- <- H.
        destruct (Hk pre receiver' args' kw' answer post H) as (pre' & matrix' & ->).
        now exists (Requested (CallMethod receiver "to_matrix" [] []) (inr matrix)
                    :: Requested (CallMethod receiver "chop" args kw) (inr chopped)
                    :: pre'), matrix'.
Qed.

End Ordering.

Ltac ordering :=
  repeat first
    [ apply chops_after_to_matrix
    | apply chops_quiet; solve [quietness]
    | progress cbv zeta
    | apply chops_bind
    | apply chops_for_each
    | match goal with
      | |- context [let (_, _) := ?p in _] => destruct p
      | |- forall _, _ => intro
      end ].

(** In every run of QubitMappings, [chop] is called on an operator only
    right after [to_matrix] was called on the same operator and returned:
    what is chopped is the operator in its matrix form. *)
Theorem QubitMappings_chops_after_to_matrix
    (W : Type) (lib : oracle W) (w : W)
    (pre : list event) (receiver : value) (args : list value) (kw : kwargs)
    (answer : exn + value) (post : list event) :
  events (QubitMappings.notebook lib w)
  = pre ++ Requested (CallMethod receiver "chop" args kw) answer :: post ->
  exists pre' matrix,
    pre = pre' ++ [Requested (CallMethod receiver "to_matrix" [] []) (inr matrix)].
Proof.
  revert lib w pre receiver args kw answer post.
  change (chops_matrices (@QubitMappings.notebook W)). unfold_cells. ordering.
Qed.

(** The stored run of QubitMappings: its first [chop], on the Jordan-Wigner
    operator, comes right after [to_matrix] on it. *)
Lemma stored_run_chops_after_to_matrix :
  let l := events (QubitMappings.notebook Replay.scripted Replay.QubitMappings_run) in
  exists pre' matrix,
    firstn 22 l = pre' ++ [Requested (CallMethod (VObj 8) "to_matrix" [] []) (inr matrix)].
Proof.
  exact (QubitMappings_chops_after_to_matrix _ Replay.scripted Replay.QubitMappings_run
           (firstn 22 (events (QubitMappings.notebook Replay.scripted
                                 Replay.QubitMappings_run)))
           (VObj 8) [pow 10 (-10)] [] (inr VNone)
           (skipn 23 (events (QubitMappings.notebook Replay.scripted
                                Replay.QubitMappings_run)))
           eq_refl).
Defined.




(** ParticleHoleTransformation, in no run, sets an attribute of the library
    (so no random seed), calls [to_matrix], or calls [print_operators]. *)
Theorem ParticleHoleTransformation_never_seeds_or_converts
    (W : Type) (lib : oracle W) (w : W) :
  asked (fun r => is_setattr r || invokes "to_matrix" r || invokes "print_operators" r)
        (events (ParticleHoleTransformation.notebook lib w)) = false.
Proof.
  revert lib w.
  change (quiet (fun r => is_setattr r || invokes "to_matrix" r
                          || invokes "print_operators" r)
                (@ParticleHoleTransformation.notebook W)).
  unfold_cells. quietness.
Qed.

(** ** The stored runs are completed runs *)



Lemma stored_QubitMappings_solves_the_mapped_operators :
  let l := events (QubitMappings.notebook Replay.scripted Replay.QubitMappings_run) in
  exists molecule h1 h2 ferOp qubitOp_jw qubitOp_pa qubitOp_bk,
    firstn 1 (returned "run" l) = [molecule] /\
    attributes "one_body_integrals" l = [(molecule, h1)] /\
    attributes "two_body_integrals" l = [(molecule, h2)] /\
    given "FermionicOperator" "h1" l = [h1] /\
    given "FermionicOperator" "h2" l = [h2] /\
    made_by "FermionicOperator" l = [ferOp] /\
    receivers "mapping" l = [ferOp; ferOp; ferOp] /\
    keyword "mapping" "map_type" l
    = [VStr "JORDAN_WIGNER"; VStr "PARITY"; VStr "BRAVYI_KITAEV"] /\
    returned "mapping" l = [qubitOp_jw; qubitOp_pa; qubitOp_bk] /\
    receivers "to_matrix" l = [qubitOp_jw; qubitOp_pa; qubitOp_bk] /\
    receivers "chop" l = [qubitOp_jw; qubitOp_pa; qubitOp_bk] /\
    receivers "print_operators" l = [qubitOp_jw; qubitOp_pa; qubitOp_bk] /\
    operands "ExactEigensolver" l = [qubitOp_jw; qubitOp_pa; qubitOp_bk] /\
    operands "VQE" l = [qubitOp_jw; qubitOp_pa; qubitOp_bk].
Proof.
  exact (QubitMappings_solves_the_mapped_operators Replay.scripted
           Replay.QubitMappings_run eq_refl).
Defined.

Lemma stored_QubitMappings_runs_what_it_makes :
  let l := events (QubitMappings.notebook Replay.scripted
                     Replay.QubitMappings_run) in
  receivers "run" l
  = made_by "PyQuanteDriver" l ++ made_by "ExactEigensolver" l ++ made_by "VQE" l /\
  List.length (made_by "PyQuanteDriver" l) = 1%nat /\
  List.length (made_by "ExactEigensolver" l) = 3%nat /\
  List.length (made_by "VQE" l) = 3%nat /\
  List.length (made_by "RY" l) = 3%nat /\
  List.length (made_by "L_BFGS_B" l) = 3%nat /\
  List.length (made_by "QuantumInstance" l) = 3%nat /\
  arguments "VQE" l
  = map (fun '(operator, var_form, lbfgs) => [operator; var_form; lbfgs; VStr "matrix"])
        (combine (combine (operands "VQE" l) (made_by "RY" l)) (made_by "L_BFGS_B" l)) /\
  arguments "RY" l = map (fun '(_, n) => [n; VInt 5]) (attributes "num_qubits" l) /\
  map fst (attributes "num_qubits" l) = operands "VQE" l /\
  passed "run" l
  = [[]; []; []; []] ++ map (fun instance => [instance]) (made_by "QuantumInstance" l) /\
  arguments "QuantumInstance" l = map (fun backend => [backend]) (returned "get_backend" l) /\
  given "QuantumInstance" "pass_manager" l = made_by "PassManager" l.
Proof.
  exact (QubitMappings_runs_what_it_makes Replay.scripted
           Replay.QubitMappings_run eq_refl).
Defined.

